(** * Native plugin boundary of the MultiSet Unity package

    Two translation units are covered.

    - [Runtime/Plugins/Android/multiset_stub.c]: the placeholder
      localization library ([_LoadModels], [_LoadMaps], [_Localize] and the
      [LocalizationResult] struct).  It is embedded function by function in
      [Module MultisetStub], over the C data of [Module CData].
    - [Runtime/Plugins/iOS/BackgroundUploader.h]: the Objective-C interface
      of the background uploader.  The header only declares methods, so its
      declarations are embedded as signatures in [Module UploaderHeader];
      the behaviour behind them is not part of the sources and is modelled
      from the written specification in [Module UploadCoordinator]. *)

From Stdlib Require Import ZArith List Bool Ascii String Lia.
From Stdlib Require Import Strings.Byte.
From Stdlib Require Import Floats.SpecFloat.
From stdpp Require Import gmap.
Import ListNotations.

Local Open Scope Z_scope.

(* ===================================================================== *)
(** * C data as the stub uses it *)
(* ===================================================================== *)

Module CData.

(** [int]: a 32-bit two's complement integer, carried as a [Z]. *)
Definition int : Type := Z.
Definition INT_MIN : Z := - 2 ^ 31.
Definition INT_MAX : Z := 2 ^ 31 - 1.
Definition int_range (z : int) : bool := (INT_MIN <=? z) && (z <=? INT_MAX).

(** [float]: an IEEE-754 binary32 value (24 bits of precision, infinities
    at exponent 128), in the Standard Library's specification of floats. *)
Definition float : Type := spec_float.
Definition float_valid (f : float) : bool := valid_binary 24 128 f.

(** [0.0f] and [1.0f]. *)
Definition float_zero : float := S754_zero false.
Definition float_one : float := S754_finite false 8388608 (-23).

(** [char]: one byte.  [char a[n]]: [n] bytes, kept as a list; the length is
    part of the C type and is stated where it matters. *)
Definition char : Type := byte.
Definition char_array (n : nat) : Type := list char.

(** [const char *]: the null pointer, or the characters of the string it
    points to (terminator excluded). *)
Definition c_string : Type := option (list char).

(** [void *]: the null pointer, or whatever bytes lie behind the pointer.
    Nothing relates the bytes to any advertised size. *)
Definition void_ptr : Type := option (list byte).

(** Conversion of an integer constant to [bool] (C11 6.3.1.2): zero is
    [false], anything else is [true]. *)
Definition bool_of_int (z : Z) : bool := negb (z =? 0).

(** The value an object gets when it is initialized implicitly, the way
    objects of static storage duration are (C11 6.7.9p10): arithmetic
    types get (positive) zero, arrays get it element by element.  The
    members that an initializer list does not reach are initialized this
    way (C11 6.7.9p21). *)
Class ZeroInit (A : Type) : Type := zero_init : A.

#[export] Instance bool_zero_init : ZeroInit bool := false.
#[export] Instance int_zero_init : ZeroInit int := 0.
#[export] Instance float_zero_init : ZeroInit float := float_zero.
#[export] Instance char_zero_init : ZeroInit char := x00.
#[export] Instance char_array_zero_init (n : nat) : ZeroInit (char_array n) :=
  replicate n (zero_init : char).

(** [strlen]: the number of characters before the first terminator.  On an
    array without terminator the scan stops at the end of the array (the C
    function would read past it; no array here is of that kind). *)
Fixpoint strlen (s : list char) : nat :=
  match s with
  | [] => 0%nat
  | c :: s' => if Byte.eqb c x00 then 0%nat else S (strlen s')
  end.

(** The text held by a character array: the characters before the first
    terminator. *)
Definition c_text (s : list char) : list char := take (strlen s) s.

End CData.

(* ===================================================================== *)
(** * multiset_stub.c *)
(* ===================================================================== *)

Module MultisetStub.
Import CData.

(** [bool _LoadModels() { return false; }] *)
Definition _LoadModels (_ : unit) : bool := false.

(** [bool _LoadMaps(const char* dbDirPath, const char* mapIdentifier)
     { return false; }] *)
Definition _LoadMaps (dbDirPath mapIdentifier : c_string) : bool := false.

(** Capacity of the [mapIds] member: [char mapIds[1024]]. *)
Definition MAP_IDS_CAPACITY : nat := 1024.

(** [typedef struct { ... } LocalizationResult;], member by member. *)
Record LocalizationResult : Type := {
  poseFound : bool;
  positionX : float;
  positionY : float;
  positionZ : float;
  rotationX : float;
  rotationY : float;
  rotationZ : float;
  rotationW : float;
  num_matches : int;
  mapIds : char_array MAP_IDS_CAPACITY;
  confidence : float
}.

(** A record of the type above denotes an object of the C struct when every
    member is a value of its C type: the floats are binary32 values, the
    counter fits an [int], and the array has exactly its declared size. *)
Definition LocalizationResult_valid (r : LocalizationResult) : Prop :=
  Forall (fun f => float_valid f = true)
    [positionX r; positionY r; positionZ r;
     rotationX r; rotationY r; rotationZ r; rotationW r; confidence r]
  /\ int_range (num_matches r) = true
  /\ length (mapIds r) = MAP_IDS_CAPACITY.

(** [LocalizationResult _Localize(...) { LocalizationResult result = {0};
     return result; }]

    The initializer list [{0}] gives the first member, [poseFound], the
    constant [0] converted to [bool]; all other members are initialized
    implicitly. *)
Definition _Localize
    (mapCode mapSetCode : c_string)
    (isRightHanded convertToGeoCoordinates : bool)
    (fx fy px py : float)
    (imageData : void_ptr) (width height : int)
    (hintMapCodes hintPosition geoCoordinates : c_string)
  : LocalizationResult :=
  let result :=
    {| poseFound := bool_of_int 0;
       positionX := zero_init;
       positionY := zero_init;
       positionZ := zero_init;
       rotationX := zero_init;
       rotationY := zero_init;
       rotationZ := zero_init;
       rotationW := zero_init;
       num_matches := zero_init;
       mapIds := zero_init;
       confidence := zero_init |} in
  result.

End MultisetStub.

(* ===================================================================== *)
(** * BackgroundUploader.h *)
(* ===================================================================== *)

Module UploaderHeader.

(** The types that occur in the header's declarations. *)
#[warnings="-register-all"]
Inductive objc_type : Type :=
| Tvoid
| Tint
| Tfloat
| TBOOL
| Tchar
| Tconst (t : objc_type)
| Tpointer (t : objc_type)
| Tfunction (ret : objc_type) (params : list objc_type)
| Tclass (name : string)
| Tinstancetype.

(** [+] declares a class method, [-] an instance method. *)
Inductive method_kind : Type := ClassMethod | InstanceMethod.

Record method_decl : Type := {
  kind : method_kind;
  return_type : objc_type;
  selector : string;
  param_types : list objc_type
}.

Definition NSString_ptr : objc_type := Tpointer (Tclass "NSString").

(** [@interface BackgroundUploader : NSObject ... @end], one entry per
    declaration and in the header's order. *)
Definition BackgroundUploader : list method_decl :=
  [ {| kind := ClassMethod; return_type := Tinstancetype;
       selector := "sharedInstance"; param_types := [] |};
    {| kind := InstanceMethod; return_type := Tint;
       selector := "startBackgroundUpload:toURL:contentType:";
       param_types := [NSString_ptr; NSString_ptr; NSString_ptr] |};
    {| kind := InstanceMethod; return_type := Tfloat;
       selector := "getUploadProgress:"; param_types := [Tint] |};
    {| kind := InstanceMethod; return_type := Tvoid;
       selector := "cancelUpload:"; param_types := [Tint] |};
    {| kind := InstanceMethod; return_type := Tvoid;
       selector := "setupCompletionCallback:";
       param_types :=
         [Tpointer (Tfunction Tvoid [Tint; TBOOL; Tpointer (Tconst Tchar)])] |} ].

(** Method lookup by selector. *)
Definition find_method (sel : string) : option method_decl :=
  List.find (fun m => String.eqb (selector m) sel) BackgroundUploader.

(** What a declared, non-function type is read as on the Rocq side:
    [const char *] is a nullable string, the scalars are as in [CData]. *)
Inductive native_shape : Type :=
| ShInteger
| ShBoolean
| ShFraction
| ShTextOrNull
| ShNothing
| ShOther.

Definition shape_of (t : objc_type) : native_shape :=
  match t with
  | Tint => ShInteger
  | TBOOL => ShBoolean
  | Tfloat => ShFraction
  | Tvoid => ShNothing
  | Tpointer (Tconst Tchar) => ShTextOrNull
  | _ => ShOther
  end.

(** The shape of a function pointer: the shapes of its parameters and of
    its result.  Anything that is not a pointer to a function has none. *)
Definition function_shape (t : objc_type)
  : option (list native_shape * native_shape) :=
  match t with
  | Tpointer (Tfunction ret params) => Some (map shape_of params, shape_of ret)
  | _ => None
  end.

(** The number of arguments a selector announces: one for each colon in
    it ([cancelUpload:] takes one, [sharedInstance] none). *)
Fixpoint selector_arity (sel : string) : nat :=
  match sel with
  | EmptyString => 0%nat
  | String c sel' =>
      ((if Ascii.eqb c ":" then 1 else 0) + selector_arity sel')%nat
  end.

(** The selectors of an interface, in declaration order. *)
Definition selectors (decls : list method_decl) : list string :=
  map selector decls.

End UploaderHeader.

(* ===================================================================== *)
(** * The upload coordinator behind BackgroundUploader.h *)
(* ===================================================================== *)

Module UploadCoordinator.
Import CData.

(** Modelled from the spec: the states of one upload.  The implementation
    of [BackgroundUploader] is not among the sources; the specification
    gives the state machine
    [Pending -> InProgress -> {Succeeded, Failed, Cancelled}]. *)
Inductive UploadState : Type :=
| Pending
| InProgress
| Succeeded
| Failed
| Cancelled.

(** Modelled from the spec: "Terminal state: an upload state
    (succeeded/failed/cancelled) after which no further transitions
    occur". *)
Definition is_terminal (s : UploadState) : bool :=
  match s with
  | Succeeded | Failed | Cancelled => true
  | Pending | InProgress => false
  end.

(** Modelled from the spec: the [UploadTask] of the data model, without its
    identifier, which is the key of the registry: source path, destination,
    content type, progress fraction, state. *)
Record UploadTask : Type := {
  task_filePath : string;
  task_uploadURL : string;
  task_contentType : string;
  task_progress : float;
  task_state : UploadState
}.

Definition with_state (s : UploadState) (t : UploadTask) : UploadTask :=
  {| task_filePath := task_filePath t;
     task_uploadURL := task_uploadURL t;
     task_contentType := task_contentType t;
     task_progress := task_progress t;
     task_state := s |}.

Definition with_progress (f : float) (t : UploadTask) : UploadTask :=
  {| task_filePath := task_filePath t;
     task_uploadURL := task_uploadURL t;
     task_contentType := task_contentType t;
     task_progress := f;
     task_state := task_state t |}.

(** Modelled from the spec: one invocation of the completion callback,
    "receiving the id, a success flag, and an optional error message". *)
Record Delivery : Type := {
  delivery_id : int;
  delivery_success : bool;
  delivery_message : c_string
}.

(** Modelled from the spec: the sentinels.  The specification asks for "a
    sentinel/error indicator" from a failed start and for "a defined
    sentinel (e.g. negative value)" from a progress query, without fixing
    either; both are taken to be minus one ([-1] and [-1.0f]). *)
Definition UPLOAD_ID_ERROR : int := -1.
Definition PROGRESS_SENTINEL : float := S754_finite true 8388608 (-23).

(** Modelled from the spec: "a progress fraction in [0.0, 1.0]". *)
Definition is_fraction (f : float) : bool :=
  SFleb float_zero f && SFleb f float_one.

Section Coordinator.

(** The state of the host application, which is all a completion callback
    can act on, and the two checks a start performs on its arguments; the
    specification leaves all three to the platform. *)
Variable Host : Type.
Variable file_readable : string -> bool.
Variable url_well_formed : string -> bool.

(** The completion callback, [void ( * )(int, BOOL, const char * )]: it
    returns nothing, so a call is its effect on the host. *)
Definition CompletionCallback : Type := int -> bool -> c_string -> Host -> Host.

(** Modelled from the spec: the process-wide coordinator
    ([sharedInstance]): the registry of tracked uploads by identifier, the
    next identifier to allocate, the registered callback (none at first),
    the host state, and the log of the callback invocations made so far.
    Tasks that reached a terminal state stay in the registry ("archived"),
    which is what lets the coordinator tell an already-terminal identifier
    from an unknown one.  Identifiers are allocated in increasing order and
    are not reused; the specification puts no bound on their number. *)
Record Coordinator : Type := {
  registry : gmap Z UploadTask;
  next_id : int;
  callback : option CompletionCallback;
  host : Host;
  delivered : list Delivery
}.

(** Modelled from the spec: the coordinator as [sharedInstance] first
    creates it ("lazily initialized on first access"): nothing tracked,
    nothing registered.  The scenario of the specification has the first
    start return [1]. *)
Definition sharedInstance (h : Host) : Coordinator :=
  {| registry := ∅; next_id := 1; callback := None; host := h; delivered := [] |}.

Definition set_registry (m : gmap Z UploadTask) (c : Coordinator) : Coordinator :=
  {| registry := m; next_id := next_id c; callback := callback c;
     host := host c; delivered := delivered c |}.

(** Modelled from the spec: the callback is "invoked once per upload
    reaching a terminal state, receiving the id, a success flag, and an
    optional error message".  The invocation happens at the transition;
    with no callback registered there is nothing to invoke. *)
Definition deliver (id : int) (success : bool) (message : c_string)
    (c : Coordinator) : Coordinator :=
  match callback c with
  | Some cb =>
      {| registry := registry c; next_id := next_id c; callback := callback c;
         host := cb id success message (host c);
         delivered := delivered c ++ [ {| delivery_id := id;
                                          delivery_success := success;
                                          delivery_message := message |} ] |}
  | None => c
  end.

(** Modelled from the spec: [startUpload] "validates that filePath exists
    and is readable and that uploadURL is well-formed; enqueues a
    background transfer; returns a newly allocated identifier, or a
    sentinel/error indicator if validation fails". *)
Definition startBackgroundUpload (filePath uploadURL contentType : string)
    (c : Coordinator) : int * Coordinator :=
  if file_readable filePath && url_well_formed uploadURL then
    let id := next_id c in
    let task := {| task_filePath := filePath; task_uploadURL := uploadURL;
                   task_contentType := contentType;
                   task_progress := float_zero; task_state := Pending |} in
    (id, {| registry := <[id := task]> (registry c); next_id := id + 1;
            callback := callback c; host := host c;
            delivered := delivered c |})
  else (UPLOAD_ID_ERROR, c).

(** Modelled from the spec: [getProgress] "returns current progress for a
    known id; returns a defined sentinel (e.g. negative value) for an
    unknown or already-completed id". *)
Definition getUploadProgress (uploadId : int) (c : Coordinator) : float :=
  match registry c !! uploadId with
  | Some t => if is_terminal (task_state t) then PROGRESS_SENTINEL
              else task_progress t
  | None => PROGRESS_SENTINEL
  end.

(** Modelled from the spec: [cancelUpload] "requests cancellation; safe to
    call on an unknown or already-terminal id (no-op)".  An upload that is
    still tracked and not terminal becomes [Cancelled], and that terminal
    outcome is delivered as a failure. *)
Definition cancelUpload (uploadId : int) (c : Coordinator) : Coordinator :=
  match registry c !! uploadId with
  | Some t =>
      if is_terminal (task_state t) then c
      else deliver uploadId false None
             (set_registry (<[uploadId := with_state Cancelled t]> (registry c)) c)
  | None => c
  end.

(** Modelled from the spec: [setCompletionCallback] "registers exactly one
    process-wide callback"; "last registration wins".  The argument is a C
    function pointer and may be null. *)
Definition setupCompletionCallback (cb : option CompletionCallback)
    (c : Coordinator) : Coordinator :=
  {| registry := registry c; next_id := next_id c; callback := cb;
     host := host c; delivered := delivered c |}.

(** Modelled from the spec: what the background transfer subsystem does
    to a task "as bytes move": it takes a pending task in progress, ... *)
Definition transferBegan (id : int) (c : Coordinator) : Coordinator :=
  match registry c !! id with
  | Some t =>
      match task_state t with
      | Pending => set_registry (<[id := with_state InProgress t]> (registry c)) c
      | _ => c
      end
  | None => c
  end.

(** Modelled from the spec: ... it moves the progress fraction of a task
    in progress within [0.0, 1.0], ... *)
Definition transferProgressed (id : int) (fraction : float)
    (c : Coordinator) : Coordinator :=
  match registry c !! id with
  | Some t =>
      match task_state t with
      | InProgress =>
          if is_fraction fraction
          then set_registry (<[id := with_progress fraction t]> (registry c)) c
          else c
      | _ => c
      end
  | None => c
  end.

(** Modelled from the spec: ... and it ends a task in progress as
    [Succeeded] or [Failed], at which point the terminal outcome is
    delivered through the callback. *)
Definition transferCompleted (id : int) (success : bool) (message : c_string)
    (c : Coordinator) : Coordinator :=
  match registry c !! id with
  | Some t =>
      match task_state t with
      | InProgress =>
          deliver id success message
            (set_registry
               (<[id := with_state (if success then Succeeded else Failed) t]>
                  (registry c)) c)
      | _ => c
      end
  | None => c
  end.

(** Modelled from the spec: everything that can happen to the
    coordinator: the four operations of the interface, called by the host,
    and the three moves of the transfer subsystem. *)
Inductive Event : Type :=
| StartBackgroundUpload (filePath uploadURL contentType : string)
| GetUploadProgress (uploadId : int)
| CancelUpload (uploadId : int)
| SetupCompletionCallback (cb : option CompletionCallback)
| TransferBegan (id : int)
| TransferProgressed (id : int) (fraction : float)
| TransferCompleted (id : int) (success : bool) (message : c_string).

(** What the caller gets back from an event: an identifier from a start, a
    fraction from a progress query, nothing otherwise (the return types of
    the header). *)
Inductive Response : Type :=
| UploadId (id : int)
| Progress (fraction : float)
| Nothing.

Definition step (e : Event) (c : Coordinator) : Response * Coordinator :=
  match e with
  | StartBackgroundUpload filePath uploadURL contentType =>
      let (id, c') := startBackgroundUpload filePath uploadURL contentType c in
      (UploadId id, c')
  | GetUploadProgress uploadId => (Progress (getUploadProgress uploadId c), c)
  | CancelUpload uploadId => (Nothing, cancelUpload uploadId c)
  | SetupCompletionCallback cb => (Nothing, setupCompletionCallback cb c)
  | TransferBegan id => (Nothing, transferBegan id c)
  | TransferProgressed id fraction => (Nothing, transferProgressed id fraction c)
  | TransferCompleted id success message =>
      (Nothing, transferCompleted id success message c)
  end.

(** The coordinator after a sequence of events, and the responses given
    along the way. *)
Fixpoint exec (es : list Event) (c : Coordinator) : Coordinator :=
  match es with
  | [] => c
  | e :: es' => exec es' (snd (step e c))
  end.

Fixpoint responses (es : list Event) (c : Coordinator) : list Response :=
  match es with
  | [] => []
  | e :: es' => fst (step e c) :: responses es' (snd (step e c))
  end.

(** The identifiers that [startBackgroundUpload] returned, among a list of
    responses (the error sentinel included, when a start failed). *)
Definition returned_ids (rs : list Response) : list int :=
  omap (fun r => match r with UploadId id => Some id | _ => None end) rs.

(** The callback invocations made so far for one identifier. *)
Definition deliveries_for (id : int) (c : Coordinator) : list Delivery :=
  List.filter (fun d => delivery_id d =? id) (delivered c).

(** What an observer of one identifier sees of a coordinator: the task
    tracked under it, if any, and the callback invocations made for it. *)
Definition view (id : int) (c : Coordinator) : option UploadTask * list Delivery :=
  (registry c !! id, deliveries_for id c).

(** Every tracked identifier was allocated: it is below the next one to
    allocate. *)
Definition ids_allocated (c : Coordinator) : Prop :=
  forall id t, registry c !! id = Some t -> id < next_id c.

End Coordinator.

Arguments registry {Host} c.
Arguments next_id {Host} c.
Arguments callback {Host} c.
Arguments host {Host} c.
Arguments delivered {Host} c.
Arguments sharedInstance {Host} h.
Arguments set_registry {Host} m c.
Arguments deliver {Host} id success message c.
Arguments startBackgroundUpload {Host} file_readable url_well_formed
  filePath uploadURL contentType c.
Arguments getUploadProgress {Host} uploadId c.
Arguments cancelUpload {Host} uploadId c.
Arguments setupCompletionCallback {Host} cb c.
Arguments transferBegan {Host} id c.
Arguments transferProgressed {Host} id fraction c.
Arguments transferCompleted {Host} id success message c.
Arguments StartBackgroundUpload {Host} filePath uploadURL contentType.
Arguments GetUploadProgress {Host} uploadId.
Arguments CancelUpload {Host} uploadId.
Arguments SetupCompletionCallback {Host} cb.
Arguments TransferBegan {Host} id.
Arguments TransferProgressed {Host} id fraction.
Arguments TransferCompleted {Host} id success message.
Arguments step {Host} file_readable url_well_formed e c.
Arguments exec {Host} file_readable url_well_formed es c.
Arguments responses {Host} file_readable url_well_formed es c.
Arguments deliveries_for {Host} id c.
Arguments view {Host} id c.
Arguments ids_allocated {Host} c.

End UploadCoordinator.

(* ===================================================================== *)
(** * Properties of multiset_stub.c *)
(* ===================================================================== *)

Module MultisetStubSpec.
Import CData MultisetStub.

(** ** Character arrays *)

Lemma strlen_le_length (s : list char) : (strlen s <= length s)%nat.
Proof.
  induction s as [|c s IH]; cbn [strlen length]; [lia|].
  destruct (Byte.eqb c x00); lia.
Qed.

Lemma zero_array_length (n : nat) : length (zero_init : char_array n) = n.
Proof. apply length_replicate. Qed.

Lemma zero_array_strlen (n : nat) : strlen (zero_init : char_array n) = 0%nat.
Proof. destruct n; reflexivity. Qed.

Lemma zero_array_text (n : nat) : c_text (zero_init : char_array n) = [].
Proof. unfold c_text. rewrite zero_array_strlen. apply take_0. Qed.

Lemma zero_array_bytes (n : nat) :
  Forall (fun c => c = x00) (zero_init : char_array n).
Proof.
  unfold zero_init, char_array_zero_init.
  induction n as [|n IH]; cbn [replicate]; constructor; [reflexivity | exact IH].
Qed.

(** ** The localization stub *)

(** The record that [_Localize] builds, with the initializer evaluated. *)
Lemma Localize_result
    (mapCode mapSetCode : c_string)
    (isRightHanded convertToGeoCoordinates : bool)
    (fx fy px py : float)
    (imageData : void_ptr) (width height : int)
    (hintMapCodes hintPosition geoCoordinates : c_string) :
  _Localize mapCode mapSetCode isRightHanded convertToGeoCoordinates
    fx fy px py imageData width height
    hintMapCodes hintPosition geoCoordinates
  = {| poseFound := false;
       positionX := float_zero; positionY := float_zero; positionZ := float_zero;
       rotationX := float_zero; rotationY := float_zero;
       rotationZ := float_zero; rotationW := float_zero;
       num_matches := 0;
       mapIds := replicate MAP_IDS_CAPACITY x00;
       confidence := float_zero |}.
Proof. reflexivity. Qed.

Section Localize.

Variables mapCode mapSetCode : c_string.
Variables isRightHanded convertToGeoCoordinates : bool.
Variables fx fy px py : float.
Variable imageData : void_ptr.
Variables width height : int.
Variables hintMapCodes hintPosition geoCoordinates : c_string.

(** C1. Whatever the map codes, flags, intrinsics, image buffer, dimensions
    and hints, the result of [_Localize] has [poseFound] false: the stub
    never recovers a pose. *)
Theorem Localize_never_finds_pose :
  poseFound
    (_Localize mapCode mapSetCode isRightHanded convertToGeoCoordinates
       fx fy px py imageData width height
       hintMapCodes hintPosition geoCoordinates) = false.
Proof. rewrite Localize_result. reflexivity. Qed.

(** C2. [_Localize] is total: on every input, a null or short image buffer
    and any width and height included, it returns a record, and that record
    is a well-formed [LocalizationResult] (binary32 floats, a counter that
    fits an [int], an identifier array of the declared size). *)
Theorem Localize_total_and_valid :
  exists r : LocalizationResult,
    _Localize mapCode mapSetCode isRightHanded convertToGeoCoordinates
      fx fy px py imageData width height
      hintMapCodes hintPosition geoCoordinates = r
    /\ LocalizationResult_valid r.
Proof.
  eexists; split; [apply Localize_result|].
  unfold LocalizationResult_valid; cbn [positionX positionY positionZ
    rotationX rotationY rotationZ rotationW confidence num_matches mapIds].
  split; [|split].
  - repeat constructor.
  - reflexivity.
  - exact (zero_array_length MAP_IDS_CAPACITY).
Qed.

(** C3. If the result of [_Localize] has [poseFound] false, its three
    position fields, its four rotation fields and its confidence are all
    zero. *)
Theorem Localize_no_pose_zero_fields :
  let r := _Localize mapCode mapSetCode isRightHanded convertToGeoCoordinates
             fx fy px py imageData width height
             hintMapCodes hintPosition geoCoordinates in
  poseFound r = false ->
  positionX r = float_zero /\ positionY r = float_zero
  /\ positionZ r = float_zero
  /\ rotationX r = float_zero /\ rotationY r = float_zero
  /\ rotationZ r = float_zero /\ rotationW r = float_zero
  /\ confidence r = float_zero.
Proof.
  intros r _. subst r. rewrite Localize_result.
  cbn [positionX positionY positionZ rotationX rotationY rotationZ rotationW
       confidence].
  repeat split.
Qed.

(** C5. The [mapIds] member of every result of [_Localize] is an array of
    exactly 1024 bytes; the text it holds is no longer than that; and there
    is a byte at an index exactly when the index is below 1024, so nothing
    can be read past the capacity. *)
Theorem Localize_mapIds_capacity :
  let r := _Localize mapCode mapSetCode isRightHanded convertToGeoCoordinates
             fx fy px py imageData width height
             hintMapCodes hintPosition geoCoordinates in
  MAP_IDS_CAPACITY = 1024%nat
  /\ length (mapIds r) = 1024%nat
  /\ (strlen (mapIds r) <= 1024)%nat
  /\ (length (c_text (mapIds r)) <= 1024)%nat
  /\ (forall i : nat, is_Some (mapIds r !! i) <-> (i < 1024)%nat).
Proof.
  intros r.
  assert (Hlen : length (mapIds r) = 1024%nat).
  { subst r. rewrite Localize_result. cbn [mapIds].
    exact (zero_array_length MAP_IDS_CAPACITY). }
  split; [reflexivity|]. split; [exact Hlen|].
  split; [rewrite <- Hlen; apply strlen_le_length|].
  split.
  - unfold c_text. rewrite length_take. lia.
  - intros i. rewrite lookup_lt_is_Some. rewrite Hlen. reflexivity.
Qed.

(** C10. The result of [_Localize] is zero throughout: besides the pose and
    the confidence, [num_matches] is 0 and [mapIds] is 1024 zero bytes, that
    is the empty string. *)
Theorem Localize_result_all_zero :
  let r := _Localize mapCode mapSetCode isRightHanded convertToGeoCoordinates
             fx fy px py imageData width height
             hintMapCodes hintPosition geoCoordinates in
  num_matches r = 0
  /\ mapIds r = replicate 1024 x00
  /\ Forall (fun c => c = x00) (mapIds r)
  /\ c_text (mapIds r) = []
  /\ poseFound r = false
  /\ [positionX r; positionY r; positionZ r;
      rotationX r; rotationY r; rotationZ r; rotationW r; confidence r]
     = replicate 8 float_zero.
Proof.
  intros r. subst r. rewrite Localize_result.
  cbn [num_matches mapIds poseFound positionX positionY positionZ
       rotationX rotationY rotationZ rotationW confidence].
  split; [reflexivity|]. split; [reflexivity|].
  split; [apply (zero_array_bytes MAP_IDS_CAPACITY)|].
  split; [apply (zero_array_text MAP_IDS_CAPACITY)|].
  split; reflexivity.
Qed.

End Localize.

(** A call to stand for the others: no map codes, a null image buffer and
    negative dimensions. *)
Lemma Localize_no_pose_zero_fields_witness :
  let r := _Localize None None false false float_zero float_zero float_zero
             float_zero None (-1) (-1) None None None in
  poseFound r = false
  /\ (positionX r = float_zero /\ positionY r = float_zero
      /\ positionZ r = float_zero
      /\ rotationX r = float_zero /\ rotationY r = float_zero
      /\ rotationZ r = float_zero /\ rotationW r = float_zero
      /\ confidence r = float_zero).
Proof.
  split; [reflexivity|].
  apply (Localize_no_pose_zero_fields None None false false float_zero
           float_zero float_zero float_zero None (-1) (-1) None None None).
  reflexivity.
Defined.

(** C9. The result of [_Localize] does not depend on its arguments: any two
    calls return equal records. *)
Theorem Localize_input_independent
    (mapCode mapSetCode : c_string)
    (isRightHanded convertToGeoCoordinates : bool)
    (fx fy px py : float)
    (imageData : void_ptr) (width height : int)
    (hintMapCodes hintPosition geoCoordinates : c_string)
    (mapCode' mapSetCode' : c_string)
    (isRightHanded' convertToGeoCoordinates' : bool)
    (fx' fy' px' py' : float)
    (imageData' : void_ptr) (width' height' : int)
    (hintMapCodes' hintPosition' geoCoordinates' : c_string) :
  _Localize mapCode mapSetCode isRightHanded convertToGeoCoordinates
    fx fy px py imageData width height
    hintMapCodes hintPosition geoCoordinates
  = _Localize mapCode' mapSetCode' isRightHanded' convertToGeoCoordinates'
      fx' fy' px' py' imageData' width' height'
      hintMapCodes' hintPosition' geoCoordinates'.
Proof. rewrite !Localize_result. reflexivity. Qed.

(** C4. [_LoadModels] returns false, and [_LoadMaps] returns false for every
    directory path and map identifier, null pointers and paths of no
    existing file included; both are total, and the [bool] they return is
    all a caller learns. *)
Theorem LoadModels_LoadMaps_return_false :
  _LoadModels tt = false
  /\ forall dbDirPath mapIdentifier : c_string,
       _LoadMaps dbDirPath mapIdentifier = false.
Proof. split; [reflexivity | intros dbDirPath mapIdentifier; reflexivity]. Qed.

End MultisetStubSpec.

(* ===================================================================== *)
(** * Properties of the upload coordinator *)
(* ===================================================================== *)

Module UploadCoordinatorSpec.
Import CData UploadCoordinator.

Section Facts.
Context {Host : Type}.
Variables file_readable url_well_formed : string -> bool.
Implicit Types (c : Coordinator Host) (id : int) (t : UploadTask).

Lemma registry_deliver id ok msg c : registry (deliver id ok msg c) = registry c.
Proof. unfold deliver. destruct (callback c); reflexivity. Qed.

Lemma next_id_deliver id ok msg c : next_id (deliver id ok msg c) = next_id c.
Proof. unfold deliver. destruct (callback c); reflexivity. Qed.

Lemma deliveries_for_deliver_ne id id' ok msg c :
  id' <> id -> deliveries_for id (deliver id' ok msg c) = deliveries_for id c.
Proof.
  intros Hne. unfold deliver, deliveries_for.
  destruct (callback c); [|reflexivity].
  cbn [delivered]. rewrite List.filter_app. cbn [List.filter delivery_id].
  destruct (Z.eqb_spec id' id); [contradiction|]. apply app_nil_r.
Qed.

(** ** Terminal tasks: each operation aimed at one is a no-op *)

Lemma cancelUpload_terminal id t c :
  registry c !! id = Some t -> is_terminal (task_state t) = true ->
  cancelUpload id c = c.
Proof. intros Hl Ht. unfold cancelUpload. rewrite Hl, Ht. reflexivity. Qed.

Lemma transferBegan_terminal id t c :
  registry c !! id = Some t -> is_terminal (task_state t) = true ->
  transferBegan id c = c.
Proof.
  intros Hl Ht. unfold transferBegan. rewrite Hl.
  destruct (task_state t); first [discriminate Ht | reflexivity].
Qed.

Lemma transferProgressed_terminal id f t c :
  registry c !! id = Some t -> is_terminal (task_state t) = true ->
  transferProgressed id f c = c.
Proof.
  intros Hl Ht. unfold transferProgressed. rewrite Hl.
  destruct (task_state t); first [discriminate Ht | reflexivity].
Qed.

Lemma transferCompleted_terminal id ok msg t c :
  registry c !! id = Some t -> is_terminal (task_state t) = true ->
  transferCompleted id ok msg c = c.
Proof.
  intros Hl Ht. unfold transferCompleted. rewrite Hl.
  destruct (task_state t); first [discriminate Ht | reflexivity].
Qed.

(** ** Frame: an operation aimed at one identifier leaves the others alone *)

Lemma view_set_registry_ne id id' t' c :
  id' <> id -> view id (set_registry (<[id' := t']> (registry c)) c) = view id c.
Proof.
  intros Hne. unfold view, deliveries_for. cbn [registry delivered set_registry].
  rewrite lookup_insert_ne by exact Hne. reflexivity.
Qed.

Lemma view_deliver_ne id id' ok msg c :
  id' <> id -> view id (deliver id' ok msg c) = view id c.
Proof.
  intros Hne. unfold view.
  rewrite registry_deliver, deliveries_for_deliver_ne by exact Hne. reflexivity.
Qed.

Lemma cancelUpload_frame id id' c :
  id' <> id -> view id (cancelUpload id' c) = view id c.
Proof.
  intros Hne. unfold cancelUpload.
  destruct (registry c !! id') as [t'|]; [|reflexivity].
  destruct (is_terminal (task_state t')); [reflexivity|].
  rewrite view_deliver_ne by exact Hne. apply view_set_registry_ne, Hne.
Qed.

Lemma transferBegan_frame id id' c :
  id' <> id -> view id (transferBegan id' c) = view id c.
Proof.
  intros Hne. unfold transferBegan.
  destruct (registry c !! id') as [t'|]; [|reflexivity].
  destruct (task_state t'); try reflexivity.
  apply view_set_registry_ne, Hne.
Qed.

Lemma transferProgressed_frame id id' f c :
  id' <> id -> view id (transferProgressed id' f c) = view id c.
Proof.
  intros Hne. unfold transferProgressed.
  destruct (registry c !! id') as [t'|]; [|reflexivity].
  destruct (task_state t'); try reflexivity.
  destruct (is_fraction f); [|reflexivity].
  apply view_set_registry_ne, Hne.
Qed.

Lemma transferCompleted_frame id id' ok msg c :
  id' <> id -> view id (transferCompleted id' ok msg c) = view id c.
Proof.
  intros Hne. unfold transferCompleted.
  destruct (registry c !! id') as [t'|]; [|reflexivity].
  destruct (task_state t'); try reflexivity.
  rewrite view_deliver_ne by exact Hne. apply view_set_registry_ne, Hne.
Qed.

Lemma startBackgroundUpload_frame id p u ct c :
  id < next_id c ->
  view id (snd (startBackgroundUpload file_readable url_well_formed p u ct c))
  = view id c.
Proof.
  intros Hlt. unfold startBackgroundUpload.
  destruct (file_readable p && url_well_formed u); [|reflexivity].
  unfold view, deliveries_for. cbn [snd registry delivered].
  rewrite lookup_insert_ne by lia. reflexivity.
Qed.

(** ** One step *)

Lemma step_terminal_absorbing e id t c :
  ids_allocated c ->
  registry c !! id = Some t -> is_terminal (task_state t) = true ->
  view id (snd (step file_readable url_well_formed e c)) = view id c.
Proof.
  intros Hinv Hl Ht.
  destruct e as [p u ct | id' | id' | cb | id' | id' f | id' ok msg];
    cbn [step snd]; try reflexivity.
  - destruct (startBackgroundUpload file_readable url_well_formed p u ct c)
      as [r c'] eqn:E.
    change c' with (snd (r, c')). rewrite <- E.
    apply startBackgroundUpload_frame. exact (Hinv id t Hl).
  - destruct (decide (id' = id)) as [->|Hne].
    + rewrite (cancelUpload_terminal id t c Hl Ht). reflexivity.
    + apply cancelUpload_frame, Hne.
  - destruct (decide (id' = id)) as [->|Hne].
    + rewrite (transferBegan_terminal id t c Hl Ht). reflexivity.
    + apply transferBegan_frame, Hne.
  - destruct (decide (id' = id)) as [->|Hne].
    + rewrite (transferProgressed_terminal id f t c Hl Ht). reflexivity.
    + apply transferProgressed_frame, Hne.
  - destruct (decide (id' = id)) as [->|Hne].
    + rewrite (transferCompleted_terminal id ok msg t c Hl Ht). reflexivity.
    + apply transferCompleted_frame, Hne.
Qed.

(** ** The allocation invariant: established, preserved *)

Lemma ids_allocated_sharedInstance (h : Host) : ids_allocated (sharedInstance h).
Proof. intros id t Hl. cbn [sharedInstance registry] in Hl. rewrite lookup_empty in Hl. discriminate. Qed.

Lemma ids_allocated_update id' t' c :
  is_Some (registry c !! id') -> ids_allocated c ->
  ids_allocated (set_registry (<[id' := t']> (registry c)) c).
Proof.
  intros [t0 H0] Hinv id t. cbn [set_registry registry next_id].
  destruct (decide (id' = id)) as [->|Hne].
  - intros _. exact (Hinv id t0 H0).
  - rewrite lookup_insert_ne by exact Hne. apply Hinv.
Qed.

Lemma ids_allocated_deliver id ok msg c :
  ids_allocated c -> ids_allocated (deliver id ok msg c).
Proof.
  intros Hinv id' t. rewrite registry_deliver, next_id_deliver. apply Hinv.
Qed.

Lemma ids_allocated_step e c :
  ids_allocated c -> ids_allocated (snd (step file_readable url_well_formed e c)).
Proof.
  intros Hinv.
  destruct e as [p u ct | id' | id' | cb | id' | id' f | id' ok msg];
    cbn [step snd]; try exact Hinv.
  - unfold startBackgroundUpload.
    destruct (file_readable p && url_well_formed u); cbn [snd]; [|exact Hinv].
    intros id t. cbn [registry next_id].
    destruct (decide (next_id c = id)) as [<-|Hne].
    + intros _. lia.
    + rewrite lookup_insert_ne by exact Hne. intros Hl.
      specialize (Hinv id t Hl). lia.
  - unfold cancelUpload.
    destruct (registry c !! id') as [t'|] eqn:E; [|exact Hinv].
    destruct (is_terminal (task_state t')); [exact Hinv|].
    apply ids_allocated_deliver, ids_allocated_update; [rewrite E|]; eauto.
  - unfold transferBegan.
    destruct (registry c !! id') as [t'|] eqn:E; [|exact Hinv].
    destruct (task_state t'); try exact Hinv.
    apply ids_allocated_update; [rewrite E|]; eauto.
  - unfold transferProgressed.
    destruct (registry c !! id') as [t'|] eqn:E; [|exact Hinv].
    destruct (task_state t'); try exact Hinv.
    destruct (is_fraction f); [|exact Hinv].
    apply ids_allocated_update; [rewrite E|]; eauto.
  - unfold transferCompleted.
    destruct (registry c !! id') as [t'|] eqn:E; [|exact Hinv].
    destruct (task_state t'); try exact Hinv.
    apply ids_allocated_deliver, ids_allocated_update; [rewrite E|]; eauto.
Qed.

Lemma ids_allocated_exec es c :
  ids_allocated c -> ids_allocated (exec file_readable url_well_formed es c).
Proof.
  revert c. induction es as [|e es IH]; intros c Hinv; cbn [exec]; [exact Hinv|].
  apply IH, ids_allocated_step, Hinv.
Qed.

(** ** Many steps *)

Lemma exec_terminal_absorbing es id t c :
  ids_allocated c ->
  registry c !! id = Some t -> is_terminal (task_state t) = true ->
  view id (exec file_readable url_well_formed es c) = view id c.
Proof.
  revert c. induction es as [|e es IH]; intros c Hinv Hl Ht; cbn [exec];
    [reflexivity|].
  pose proof (step_terminal_absorbing e id t c Hinv Hl Ht) as Hstep.
  rewrite IH.
  - exact Hstep.
  - apply ids_allocated_step, Hinv.
  - unfold view in Hstep. rewrite Hl in Hstep. congruence.
  - exact Ht.
Qed.

(** ** Tracked identifiers were returned by a start *)

Lemma step_tracks e id c :
  is_Some (registry (snd (step file_readable url_well_formed e c)) !! id) ->
  is_Some (registry c !! id)
  \/ fst (step file_readable url_well_formed e c) = UploadId id.
Proof.
  destruct e as [p u ct | id' | id' | cb | id' | id' f | id' ok msg];
    cbn [step snd fst]; auto.
  - unfold startBackgroundUpload.
    destruct (file_readable p && url_well_formed u); cbn [snd fst registry]; auto.
    destruct (decide (next_id c = id)) as [<-|Hne]; [auto|].
    rewrite lookup_insert_ne by exact Hne. auto.
  - unfold cancelUpload.
    destruct (registry c !! id') as [t'|] eqn:E; auto.
    destruct (is_terminal (task_state t')); auto.
    rewrite registry_deliver. cbn [set_registry registry].
    destruct (decide (id' = id)) as [<-|Hne]; [rewrite E; eauto|].
    rewrite lookup_insert_ne by exact Hne. auto.
  - unfold transferBegan.
    destruct (registry c !! id') as [t'|] eqn:E; auto.
    destruct (task_state t'); auto. cbn [set_registry registry].
    destruct (decide (id' = id)) as [<-|Hne]; [rewrite E; eauto|].
    rewrite lookup_insert_ne by exact Hne. auto.
  - unfold transferProgressed.
    destruct (registry c !! id') as [t'|] eqn:E; auto.
    destruct (task_state t'); auto. destruct (is_fraction f); auto.
    cbn [set_registry registry].
    destruct (decide (id' = id)) as [<-|Hne]; [rewrite E; eauto|].
    rewrite lookup_insert_ne by exact Hne. auto.
  - unfold transferCompleted.
    destruct (registry c !! id') as [t'|] eqn:E; auto.
    destruct (task_state t'); auto.
    rewrite registry_deliver. cbn [set_registry registry].
    destruct (decide (id' = id)) as [<-|Hne]; [rewrite E; eauto|].
    rewrite lookup_insert_ne by exact Hne. auto.
Qed.

Lemma exec_tracks es id c :
  is_Some (registry (exec file_readable url_well_formed es c) !! id) ->
  is_Some (registry c !! id)
  \/ In id (returned_ids (responses file_readable url_well_formed es c)).
Proof.
  revert c. induction es as [|e es IH]; intros c; cbn [exec responses]; [auto|].
  intros H. destruct (IH _ H) as [H'|H'].
  - destruct (step_tracks e id c H') as [H''|H'']; [auto|].
    right. rewrite H''. cbn. auto.
  - right. unfold returned_ids. cbn [omap].
    destruct (fst (step file_readable url_well_formed e c)); cbn; auto.
Qed.

End Facts.

(** ** The scenarios of the specification, run on the model *)

(** A start on a readable file returns 1; progress is then a fraction; on
    completion the callback is invoked once, with [(1, true, null)]. *)
Example scenario_upload_succeeds :
  let cb : CompletionCallback nat := fun _ _ _ n => S n in
  let es :=
    [ SetupCompletionCallback (Some cb);
      StartBackgroundUpload "/tmp/a.bin" "https://x/y" "application/octet-stream";
      TransferBegan 1;
      GetUploadProgress 1;
      TransferCompleted 1 true None;
      GetUploadProgress 1 ] in
  let c := exec (fun _ => true) (fun _ => true) es (sharedInstance 0%nat) in
  responses (fun _ => true) (fun _ => true) es (sharedInstance 0%nat)
    = [Nothing; UploadId 1; Nothing; Progress float_zero; Nothing;
       Progress PROGRESS_SENTINEL]
  /\ is_fraction float_zero = true
  /\ delivered c = [ {| delivery_id := 1; delivery_success := true;
                        delivery_message := None |} ]
  /\ host c = 1%nat.
Proof. vm_compute. repeat split. Qed.

(** A start on an unreadable file returns the error sentinel, tracks
    nothing, and no callback is invoked for it. *)
Example scenario_start_refused :
  let cb : CompletionCallback nat := fun _ _ _ n => S n in
  let es :=
    [ SetupCompletionCallback (Some cb);
      StartBackgroundUpload "/nonexistent" "https://x/y" "text/plain";
      TransferBegan UPLOAD_ID_ERROR;
      TransferCompleted UPLOAD_ID_ERROR false None;
      CancelUpload UPLOAD_ID_ERROR ] in
  let c := exec (fun _ => false) (fun _ => true) es (sharedInstance 0%nat) in
  responses (fun _ => false) (fun _ => true) es (sharedInstance 0%nat)
    = [Nothing; UploadId UPLOAD_ID_ERROR; Nothing; Nothing; Nothing]
  /\ registry c = ∅
  /\ delivered c = []
  /\ host c = 0%nat.
Proof. vm_compute. repeat split. Qed.

(** C6. Terminal states are absorbing.  Take any history of the
    coordinator after which upload [id] is tracked in a terminal state
    (succeeded, failed or cancelled).  Whatever events follow, the task
    under [id] stays as it was, state and progress included, no further
    callback invocation is made for [id], and [cancelUpload] on [id]
    changes nothing at all. *)
Theorem terminal_upload_is_absorbing
    {Host : Type} (file_readable url_well_formed : string -> bool) (h : Host)
    (before after : list (Event Host)) (id : int) (t : UploadTask) :
  let c := exec file_readable url_well_formed before (sharedInstance h) in
  let c' := exec file_readable url_well_formed after c in
  registry c !! id = Some t ->
  is_terminal (task_state t) = true ->
  registry c' !! id = Some t
  /\ deliveries_for id c' = deliveries_for id c
  /\ cancelUpload id c' = c'.
Proof.
  intros c c' Hl Ht.
  assert (Hinv : ids_allocated c)
    by apply ids_allocated_exec, ids_allocated_sharedInstance.
  pose proof (exec_terminal_absorbing file_readable url_well_formed
                after id t c Hinv Hl Ht) as Hview.
  fold c' in Hview. unfold view in Hview. rewrite Hl in Hview.
  injection Hview as Hreg Hdel.
  split; [exact Hreg|]. split; [exact Hdel|].
  exact (cancelUpload_terminal id t c' Hreg Ht).
Qed.

(** An upload that is started, begins, and is cancelled while a callback is
    registered; afterwards it is cancelled again, reported on by the
    transfer subsystem, and a second upload is started. *)
Lemma terminal_upload_is_absorbing_witness :
  let cb : CompletionCallback nat := fun _ _ _ n => S n in
  let before :=
    [ SetupCompletionCallback (Some cb);
      StartBackgroundUpload "/tmp/a.bin" "https://x/y" "application/octet-stream";
      TransferBegan 1;
      CancelUpload 1 ] in
  let after :=
    [ CancelUpload 1;
      TransferProgressed 1 float_one;
      TransferCompleted 1 true None;
      StartBackgroundUpload "/tmp/b.bin" "https://x/y" "text/plain";
      CancelUpload 1 ] in
  let c := exec (fun _ => true) (fun _ => true) before (sharedInstance 0%nat) in
  let c' := exec (fun _ => true) (fun _ => true) after c in
  let t := {| task_filePath := "/tmp/a.bin"; task_uploadURL := "https://x/y";
              task_contentType := "application/octet-stream";
              task_progress := float_zero; task_state := Cancelled |} in
  (registry c !! 1 = Some t /\ is_terminal (task_state t) = true)
  /\ (registry c' !! 1 = Some t
      /\ deliveries_for 1 c' = deliveries_for 1 c
      /\ cancelUpload 1 c' = c').
Proof.
  intros cb before after c c' t.
  assert (Hl : registry c !! 1 = Some t) by (vm_compute; reflexivity).
  assert (Ht : is_terminal (task_state t) = true) by reflexivity.
  split; [split; [exact Hl | exact Ht]|].
  exact (terminal_upload_is_absorbing (fun _ => true) (fun _ => true) 0%nat
           before after 1 t Hl Ht).
Defined.

(** C7. After any history of the coordinator, [getUploadProgress] on an
    identifier that no [startBackgroundUpload] of that history returned
    yields the sentinel, which is negative and so is no progress
    fraction. *)
Theorem getUploadProgress_of_unknown_id
    {Host : Type} (file_readable url_well_formed : string -> bool) (h : Host)
    (es : list (Event Host)) (id : int) :
  ~ In id (returned_ids
             (responses file_readable url_well_formed es (sharedInstance h))) ->
  getUploadProgress id (exec file_readable url_well_formed es (sharedInstance h))
    = PROGRESS_SENTINEL
  /\ SFltb PROGRESS_SENTINEL float_zero = true
  /\ is_fraction PROGRESS_SENTINEL = false.
Proof.
  intros Hnot. split; [|split; reflexivity].
  unfold getUploadProgress.
  destruct (registry (exec file_readable url_well_formed es (sharedInstance h))
              !! id) as [t|] eqn:E; [|reflexivity].
  exfalso. apply Hnot.
  destruct (exec_tracks file_readable url_well_formed es id (sharedInstance h))
    as [[t0 H0]|Hin]; [rewrite E; eauto | | exact Hin].
  cbn [sharedInstance registry] in H0. rewrite lookup_empty in H0. discriminate.
Qed.

(** One upload is started (it receives 1) and makes progress; a second
    start is refused; identifier 7 was never handed out. *)
Lemma getUploadProgress_of_unknown_id_witness :
  let readable := fun p : string => String.eqb p "/tmp/a.bin" in
  let es : list (Event unit) :=
    [ StartBackgroundUpload "/tmp/a.bin" "https://x/y" "application/octet-stream";
      TransferBegan 1;
      TransferProgressed 1 float_one;
      StartBackgroundUpload "/nonexistent" "https://x/y" "text/plain" ] in
  returned_ids (responses readable (fun _ => true) es (sharedInstance tt))
    = [1; UPLOAD_ID_ERROR]
  /\ getUploadProgress 1 (exec readable (fun _ => true) es (sharedInstance tt))
     = float_one
  /\ (getUploadProgress 7 (exec readable (fun _ => true) es (sharedInstance tt))
       = PROGRESS_SENTINEL
      /\ SFltb PROGRESS_SENTINEL float_zero = true
      /\ is_fraction PROGRESS_SENTINEL = false).
Proof.
  intros readable es.
  assert (Hids : returned_ids
                   (responses readable (fun _ => true) es (sharedInstance tt))
                 = [1; UPLOAD_ID_ERROR]) by (vm_compute; reflexivity).
  split; [exact Hids|]. split; [vm_compute; reflexivity|].
  apply (getUploadProgress_of_unknown_id readable (fun _ => true) tt es 7).
  rewrite Hids. unfold UPLOAD_ID_ERROR. cbn [In]. lia.
Defined.

End UploadCoordinatorSpec.

(* ===================================================================== *)
(** * Properties of BackgroundUploader.h *)
(* ===================================================================== *)

Module UploaderHeaderSpec.
Import UploaderHeader.

(** C8. [setupCompletionCallback:] is declared as an instance method that
    returns nothing and takes one argument, a pointer to a function of an
    [int], a [BOOL] and a [const char *] that returns [void]: the native
    shape (integer, boolean, text-or-null) with no result. *)
Theorem completion_callback_native_shape :
  exists (m : method_decl) (cb : objc_type),
    find_method "setupCompletionCallback:" = Some m
    /\ kind m = InstanceMethod
    /\ return_type m = Tvoid
    /\ param_types m = [cb]
    /\ cb = Tpointer (Tfunction Tvoid [Tint; TBOOL; Tpointer (Tconst Tchar)])
    /\ function_shape cb = Some ([ShInteger; ShBoolean; ShTextOrNull], ShNothing).
Proof.
  eexists. eexists.
  split; [reflexivity|]. cbn [kind return_type param_types].
  repeat split; reflexivity.
Qed.

End UploaderHeaderSpec.

(* ===================================================================== *)
(** * Further properties of multiset_stub.c: the identifier text *)
(* ===================================================================== *)

Module MapIdsText.
Import CData MultisetStub.

(** In an array that holds a terminator, [strlen] stops on the first one,
    inside the array, and nothing before it is a terminator. *)
Lemma strlen_terminated (s : list char) :
  In x00 s ->
  (strlen s < length s)%nat
  /\ s !! strlen s = Some x00
  /\ Forall (fun c => c <> x00) (take (strlen s) s).
Proof.
  induction s as [|c s IH]; intros Hin; [destruct Hin|].
  cbn [strlen]. destruct (Byte.eqb c x00) eqn:E.
  - apply Byte.byte_dec_bl in E. subst c. cbn. repeat split; [lia | constructor].
  - destruct Hin as [->|Hin]; [discriminate E|].
    destruct (IH Hin) as (Hlt & Hat & Hbefore).
    cbn [length lookup take]. repeat split; [lia | exact Hat |].
    constructor; [|exact Hbefore].
    intros ->. discriminate E.
Qed.

(** X1. The [mapIds] array of every result of [_Localize] is a terminated C
    string: its first terminator lies strictly inside the 1024 bytes, so
    reading the member as a string never leaves the array. *)
Theorem Localize_mapIds_terminated
    (mapCode mapSetCode : c_string)
    (isRightHanded convertToGeoCoordinates : bool)
    (fx fy px py : float)
    (imageData : void_ptr) (width height : int)
    (hintMapCodes hintPosition geoCoordinates : c_string) :
  let r := _Localize mapCode mapSetCode isRightHanded convertToGeoCoordinates
             fx fy px py imageData width height
             hintMapCodes hintPosition geoCoordinates in
  In x00 (mapIds r)
  /\ (strlen (mapIds r) < MAP_IDS_CAPACITY)%nat
  /\ mapIds r !! strlen (mapIds r) = Some x00
  /\ (S (length (c_text (mapIds r))) <= length (mapIds r))%nat.
Proof.
  intros r.
  assert (Hin : In x00 (mapIds r)) by (left; reflexivity).
  assert (Hlen : length (mapIds r) = MAP_IDS_CAPACITY)
    by (apply (length_replicate MAP_IDS_CAPACITY x00)).
  destruct (strlen_terminated (mapIds r) Hin) as (Hlt & Hat & _).
  split; [exact Hin|]. split; [rewrite <- Hlen; exact Hlt|].
  split; [exact Hat|].
  unfold c_text. rewrite length_take. lia.
Qed.

End MapIdsText.

(* ===================================================================== *)
(** * Further properties of BackgroundUploader.h: the interface as a whole *)
(* ===================================================================== *)

Module UploaderInterface.
Import UploaderHeader.

(** In a list of declarations with pairwise distinct selectors, the lookup
    by selector finds a declaration exactly when it is in the list under
    that selector. *)
Lemma find_by_selector (decls : list method_decl) (sel : string)
    (m : method_decl) :
  List.NoDup (selectors decls) ->
  List.find (fun d => String.eqb (selector d) sel) decls = Some m
  <-> In m decls /\ selector m = sel.
Proof.
  unfold selectors.
  induction decls as [|d decls IH]; intros Hnd; cbn [List.find map].
  - split; [discriminate | intros [[] _]].
  - inversion Hnd as [|? ? Hfresh Hnd']; subst.
    destruct (String.eqb_spec (selector d) sel) as [Heq|Hne].
    + split.
      * intros [= <-]. split; [left; reflexivity | exact Heq].
      * intros [[->|Hin] Hsel]; [reflexivity|].
        exfalso. apply Hfresh. rewrite Heq, <- Hsel. apply in_map, Hin.
    + rewrite (IH Hnd'). split.
      * intros [Hin Hsel]. split; [right; exact Hin | exact Hsel].
      * intros [[->|Hin] Hsel]; [contradiction | split; assumption].
Qed.

Lemma BackgroundUploader_selectors_distinct :
  List.NoDup (selectors BackgroundUploader).
Proof.
  unfold selectors, BackgroundUploader. cbn [map selector].
  repeat (constructor; [cbn [In]; intuition discriminate|]).
  constructor.
Qed.

(** X2. No two declarations of the interface share a selector, so a
    selector names at most one method: the lookup by selector returns a
    declaration exactly when the header declares it under that selector. *)
Theorem BackgroundUploader_lookup_exact (sel : string) (m : method_decl) :
  List.NoDup (selectors BackgroundUploader)
  /\ (find_method sel = Some m
      <-> In m BackgroundUploader /\ selector m = sel).
Proof.
  split; [exact BackgroundUploader_selectors_distinct|].
  apply find_by_selector, BackgroundUploader_selectors_distinct.
Qed.

(** X3. Upload identifiers have one type across the interface: what
    [startBackgroundUpload:toURL:contentType:] returns is what
    [getUploadProgress:] and [cancelUpload:] take, and what the completion
    callback receives first; that type is [int]. *)
Theorem upload_id_type_agrees :
  exists (start progress cancel setup : method_decl)
         (cb_ret : objc_type) (cb_rest : list objc_type),
    find_method "startBackgroundUpload:toURL:contentType:" = Some start
    /\ find_method "getUploadProgress:" = Some progress
    /\ find_method "cancelUpload:" = Some cancel
    /\ find_method "setupCompletionCallback:" = Some setup
    /\ return_type start = Tint
    /\ param_types progress = [return_type start]
    /\ param_types cancel = [return_type start]
    /\ param_types setup
       = [Tpointer (Tfunction cb_ret (return_type start :: cb_rest))].
Proof.
  do 6 eexists.
  split; [reflexivity|]. split; [reflexivity|].
  split; [reflexivity|]. split; [reflexivity|].
  cbn [return_type param_types]. repeat split; reflexivity.
Qed.

(** X4. Every declaration takes as many parameters as its selector has
    colons. *)
Theorem BackgroundUploader_arity (m : method_decl) :
  In m BackgroundUploader ->
  length (param_types m) = selector_arity (selector m).
Proof.
  unfold BackgroundUploader. cbn [In].
  intros [<-|[<-|[<-|[<-|[<-|[]]]]]]; reflexivity.
Qed.

Lemma BackgroundUploader_arity_witness :
  let m := {| kind := InstanceMethod; return_type := Tint;
              selector := "startBackgroundUpload:toURL:contentType:";
              param_types := [NSString_ptr; NSString_ptr; NSString_ptr] |} in
  In m BackgroundUploader
  /\ length (param_types m) = selector_arity (selector m).
Proof.
  intros m.
  assert (Hin : In m BackgroundUploader) by (right; left; reflexivity).
  split; [exact Hin | exact (BackgroundUploader_arity m Hin)].
Defined.



End UploaderInterface.
